(** * usePaymentService: the payment orchestration hook

    A shallow embedding of [src/hooks/usePaymentService.ts].  The hook owns
    two React state cells ([isProcessing], [error]) and exposes five payment
    flows and one query.  Every flow is a linear [try]/[catch]/[finally]
    sequence over collaborators imported from [../utils/paymentService] and
    [../utils/paymentVerification]; those modules are taken as interfaces.

    Effects are modelled by a small monad that threads the hook state and the
    state of the outside world, carries JavaScript completions (a value or a
    thrown value) and emits the ordered list of observable events: state
    writes, toasts, and calls made to the collaborators.  [console.*] output
    is developer logging only and is not part of the model. *)

From Stdlib Require Import String List Bool ZArith Lia.
From Stdlib Require Import Floats.SpecFloat.
Import ListNotations.
Open Scope string_scope.
Open Scope list_scope.

(** ** Data model *)

(** A JavaScript [number] is an IEEE 754 binary64 value. *)
Definition number : Type := spec_float.

(** [interface PaymentData] *)
Record PaymentData : Type := {
  orderId : string;
  amount : number;
  walletAddress : string
}.

(** [interface PaymentResult]; an optional property that is missing or
    [undefined] is [None]. *)
Module PaymentResult.
Record t : Type := mk {
  success : bool;
  transactionId : option string;
  error : option string
}.
End PaymentResult.
Abbreviation PaymentResult := PaymentResult.t.

(** The [finalPayload] of a wallet-client response, with the properties the
    hook reads: [status], and the optional [error_code] and
    [transaction_id]. *)
Record FinalPayload : Type := {
  status : string;
  error_code : option string;
  transaction_id : option string
}.

Record Response : Type := { finalPayload : FinalPayload }.

(** [PAYMENT_SERVICE_CONFIG] *)
Record Config : Type := {
  CONTRACT_ADDRESS : string;
  WLD_TOKEN_ADDRESS : string;
  RECIPIENT_ADDRESS : string
}.

(** A thrown JavaScript value: an [Error] carrying its [message], or any
    other value (for which [instanceof Error] is false). *)
Inductive Thrown : Type :=
| JsError (message : string)
| NonError (shown : string).

(** A completion: the call returned (the promise resolved) or threw (the
    promise rejected). *)
Inductive Completion (A : Type) : Type :=
| Return (a : A)
| Throw (x : Thrown).
Arguments Return {A} a.
Arguments Throw {A} x.

(** JavaScript truthiness of an optional string: [undefined] and the empty
    string are falsy.  The result is the string itself when it is truthy. *)
Definition truthy (v : option string) : option string :=
  match v with
  | Some s => if s =? "" then None else Some s
  | None => None
  end.

(** The spec's two outcomes of a wallet-client call. *)
Definition Failure (p : FinalPayload) : Prop := status p = "error".
Definition Success (p : FinalPayload) : Prop := status p = "success".

(** ** The collaborators *)

(** The first argument of [executePaymentService] and [executeSmartPayment]:
    the object literal [{ amount: amountInWei, referenceId: data.orderId }]. *)
Record PaymentParams (Wei : Type) : Type := {
  amountInWei : Wei;
  referenceId : string
}.
Arguments amountInWei {Wei} _.
Arguments referenceId {Wei} _.

(** [../utils/paymentService].  [Wei] is the type of minor-unit amounts and
    [E] the state of the outside world (wallet, chain, clock) on which the
    asynchronous operations depend and which they may change. *)
Class PaymentServiceModule (Wei E : Type) : Type := {
  PAYMENT_SERVICE_CONFIG : Config;
  wldToWei : number -> Completion Wei;
  executePaymentService :
    PaymentParams Wei -> string -> string -> E -> Completion Response * E;
  executeSmartPayment :
    PaymentParams Wei -> string -> E -> Completion Response * E;
  approveWLDSpending : Wei -> E -> Completion Response * E;
  hassufficientAllowance : string -> Wei -> E -> Completion bool * E
}.

(** [../utils/paymentVerification] *)
Class PaymentVerificationModule (E : Type) : Type := {
  waitForTransactionConfirmation : string -> E -> Completion unit * E
}.

(** Calls made to the collaborators, with their arguments. *)
Inductive Call (Wei : Type) : Type :=
| CallWldToWei (amount : number)
| CallExecutePaymentService
    (params : PaymentParams Wei) (tokenAddress recipientAddress : string)
| CallExecuteSmartPayment (params : PaymentParams Wei) (walletAddress : string)
| CallApproveWLDSpending (amount : Wei)
| CallHassufficientAllowance (walletAddress : string) (amount : Wei)
| CallWaitForTransactionConfirmation (transactionId : string).
Arguments CallWldToWei {Wei} _.
Arguments CallExecutePaymentService {Wei} _ _ _.
Arguments CallExecuteSmartPayment {Wei} _ _.
Arguments CallApproveWLDSpending {Wei} _.
Arguments CallHassufficientAllowance {Wei} _ _.
Arguments CallWaitForTransactionConfirmation {Wei} _.

(** What an invocation does that can be observed from outside, in order.
    [Called c] is emitted when a collaborator is invoked, and [Rejected c x]
    after it when that call threw [x]. *)
Inductive Event (Wei : Type) : Type :=
| SetIsProcessing (b : bool)
| SetError (e : option string)
| ToastSuccess (msg : string)
| ToastError (msg : string)
| Called (c : Call Wei)
| Rejected (c : Call Wei) (x : Thrown).
Arguments SetIsProcessing {Wei} _.
Arguments SetError {Wei} _.
Arguments ToastSuccess {Wei} _.
Arguments ToastError {Wei} _.
Arguments Called {Wei} _.
Arguments Rejected {Wei} _ _.

(** The wallet-client operations: approval, payment, smart payment. *)
Definition isWalletCall {Wei} (ev : Event Wei) : bool :=
  match ev with
  | Called (CallExecutePaymentService _ _ _)
  | Called (CallExecuteSmartPayment _ _)
  | Called (CallApproveWLDSpending _) => true
  | _ => false
  end.

Definition isPaymentCall {Wei} (ev : Event Wei) : bool :=
  match ev with
  | Called (CallExecutePaymentService _ _ _) => true
  | _ => false
  end.

Definition isConversion {Wei} (ev : Event Wei) : bool :=
  match ev with
  | Called (CallWldToWei _) => true
  | _ => false
  end.

Definition isToast {Wei} (ev : Event Wei) : bool :=
  match ev with
  | ToastSuccess _ | ToastError _ => true
  | _ => false
  end.

Definition isStateWrite {Wei} (ev : Event Wei) : bool :=
  match ev with
  | SetIsProcessing _ | SetError _ => true
  | _ => false
  end.

Definition isProcessingWrite {Wei} (ev : Event Wei) : bool :=
  match ev with
  | SetIsProcessing _ => true
  | _ => false
  end.

(** ** The effect monad *)

(** The two [useState] cells of one hook instance, next to the state of the
    outside world. *)
Record HookState (E : Type) : Type := {
  ext : E;
  isProcessing : bool;
  error : option string
}.
Arguments ext {E} _.
Arguments isProcessing {E} _.
Arguments error {E} _.

(** The value of [useState(false)] and [useState(null)] on first render. *)
Definition initialState {E} (e : E) : HookState E :=
  {| ext := e; isProcessing := false; error := None |}.

Definition M (Wei E A : Type) : Type :=
  HookState E -> Completion A * HookState E * list (Event Wei).

Section Monad.
Context {Wei E : Type}.

Definition ret {A} (a : A) : M Wei E A := fun s => (Return a, s, []).

Definition throw {A} (x : Thrown) : M Wei E A := fun s => (Throw x, s, []).

Definition bind {A B} (m : M Wei E A) (k : A -> M Wei E B) : M Wei E B :=
  fun s =>
    match m s with
    | (Return a, s1, l1) =>
        match k a s1 with
        | (r, s2, l2) => (r, s2, l1 ++ l2)
        end
    | (Throw x, s1, l1) => (Throw x, s1, l1)
    end.

(** [try { body } catch (x) { handler x }] *)
Definition try_catch {A} (body : M Wei E A) (handler : Thrown -> M Wei E A)
  : M Wei E A :=
  fun s =>
    match body s with
    | (Return a, s1, l1) => (Return a, s1, l1)
    | (Throw x, s1, l1) =>
        match handler x s1 with
        | (r, s2, l2) => (r, s2, l1 ++ l2)
        end
    end.

(** [try { body } finally { fin }]: the [finally] block always runs; when
    it completes normally the completion of [body] stands, when it throws
    its own completion replaces it. *)
Definition try_finally {A} (body : M Wei E A) (fin : M Wei E unit)
  : M Wei E A :=
  fun s =>
    match body s with
    | (r, s1, l1) =>
        match fin s1 with
        | (Return _, s2, l2) => (r, s2, l1 ++ l2)
        | (Throw x, s2, l2) => (Throw x, s2, l1 ++ l2)
        end
    end.

(** [try { body } catch (x) { handler x } finally { fin }] *)
Definition try_catch_finally {A}
  (body : M Wei E A) (handler : Thrown -> M Wei E A) (fin : M Wei E unit)
  : M Wei E A :=
  try_finally (try_catch body handler) fin.

(** [if (c) { m }] as a statement. *)
Definition when (c : bool) (m : M Wei E unit) : M Wei E unit :=
  if c then m else ret tt.

Definition emit (ev : Event Wei) : M Wei E unit :=
  fun s => (Return tt, s, [ev]).

(** The state setters returned by [useState]. *)
Definition setIsProcessing (b : bool) : M Wei E unit :=
  fun s =>
    (Return tt,
     {| ext := ext s; isProcessing := b; error := error s |},
     [SetIsProcessing b]).

Definition setError (e : option string) : M Wei E unit :=
  fun s =>
    (Return tt,
     {| ext := ext s; isProcessing := isProcessing s; error := e |},
     [SetError e]).

(** [toast.success] and [toast.error] of sonner: fire and forget. *)
Definition toast_success (msg : string) : M Wei E unit :=
  emit (ToastSuccess msg).

Definition toast_error (msg : string) : M Wei E unit :=
  emit (ToastError msg).

Definition outcomeEvents {A} (c : Call Wei) (r : Completion A)
  : list (Event Wei) :=
  match r with
  | Return _ => [Called c]
  | Throw x => [Called c; Rejected c x]
  end.

(** A synchronous call of a pure collaborator. *)
Definition call {A} (c : Call Wei) (r : Completion A) : M Wei E A :=
  fun s => (r, s, outcomeEvents c r).

(** [await f(...)]: the collaborator runs on the outside world, and the
    hook resumes with its completion.  A run is one invocation on its own:
    no other invocation of the same hook writes the two cells while this one
    is suspended. *)
Definition await {A} (c : Call Wei) (f : E -> Completion A * E)
  : M Wei E A :=
  fun s =>
    match f (ext s) with
    | (r, e') =>
        (r,
         {| ext := e'; isProcessing := isProcessing s; error := error s |},
         outcomeEvents c r)
    end.
End Monad.

Notation "x <- m ;; k" := (bind m (fun x => k))
  (at level 61, m at next level, right associativity).
Notation "m ;; k" := (bind m (fun _ => k))
  (at level 61, right associativity).

(** ** The hook *)

Section Hook.
Context {Wei E : Type}.
Context {paymentService : PaymentServiceModule Wei E}.
Context {paymentVerification : PaymentVerificationModule E}.

(** The imported operations, as the hook invokes them. *)
Definition callWldToWei (amount : number) : M Wei E Wei :=
  call (CallWldToWei amount) (wldToWei amount).

Definition awaitExecutePaymentService
  (params : PaymentParams Wei) (tokenAddress recipientAddress : string)
  : M Wei E Response :=
  await (CallExecutePaymentService params tokenAddress recipientAddress)
        (executePaymentService params tokenAddress recipientAddress).

Definition awaitExecuteSmartPayment
  (params : PaymentParams Wei) (walletAddress : string) : M Wei E Response :=
  await (CallExecuteSmartPayment params walletAddress)
        (executeSmartPayment params walletAddress).

Definition awaitApproveWLDSpending (amount : Wei) : M Wei E Response :=
  await (CallApproveWLDSpending amount) (approveWLDSpending amount).

Definition awaitHassufficientAllowance (walletAddress : string) (amount : Wei)
  : M Wei E bool :=
  await (CallHassufficientAllowance walletAddress amount)
        (hassufficientAllowance walletAddress amount).

Definition awaitWaitForTransactionConfirmation (transactionId : string)
  : M Wei E unit :=
  await (CallWaitForTransactionConfirmation transactionId)
        (waitForTransactionConfirmation transactionId).

(** [error instanceof Error ? error.message : fallback] *)
Definition errorMessageOf (error : Thrown) (fallback : string) : string :=
  match error with
  | JsError message => message
  | NonError _ => fallback
  end.

(** The [catch] block shared by the five flows, up to the fallback text. *)
Definition reportFailure (fallback : string) (error : Thrown)
  : M Wei E PaymentResult :=
  let errorMessage := errorMessageOf error fallback in
  setError (Some errorMessage) ;;
  toast_error errorMessage ;;
  ret (PaymentResult.mk false None (Some errorMessage)).

(** The check of a payment response: [if (status === "error")] throws the
    error code when it is truthy and ["payment_failed"] otherwise. *)
Definition throwIfPaymentError (payload : FinalPayload) : M Wei E unit :=
  when (status payload =? "error")
    (match truthy (error_code payload) with
     | Some errorCode => throw (JsError errorCode)
     | None => throw (JsError "payment_failed")
     end).

(** The check of an approval response:
    [throw new Error(errorPayload.error_code || "approval_failed")]. *)
Definition throwIfApprovalError (payload : FinalPayload) : M Wei E unit :=
  when (status payload =? "error")
    (throw (JsError match truthy (error_code payload) with
                    | Some errorCode => errorCode
                    | None => "approval_failed"
                    end)).

(** The inner [try { await waitForTransactionConfirmation(id) } catch {}]. *)
Definition confirmOrContinue (transactionId : string) : M Wei E unit :=
  try_catch (awaitWaitForTransactionConfirmation transactionId)
            (fun _confirmationError => ret tt).

Definition processPayment (data : PaymentData) : M Wei E PaymentResult :=
  setIsProcessing true ;;
  setError None ;;
  try_catch_finally
    (amountInWei <- callWldToWei (amount data) ;;
     paymentResponse <-
       awaitExecutePaymentService
         {| amountInWei := amountInWei; referenceId := orderId data |}
         (WLD_TOKEN_ADDRESS PAYMENT_SERVICE_CONFIG)
         (RECIPIENT_ADDRESS PAYMENT_SERVICE_CONFIG) ;;
     throwIfPaymentError (finalPayload paymentResponse) ;;
     match truthy (transaction_id (finalPayload paymentResponse)) with
     | None => throw (JsError "No transaction ID received from payment")
     | Some transactionId =>
         confirmOrContinue transactionId ;;
         toast_success "Payment successful!" ;;
         ret (PaymentResult.mk true (Some transactionId) None)
     end)
    (reportFailure "Payment processing failed")
    (setIsProcessing false).

Definition processPaymentWithApproval (data : PaymentData)
  : M Wei E PaymentResult :=
  setIsProcessing true ;;
  setError None ;;
  try_catch_finally
    (amountInWei <- callWldToWei (amount data) ;;
     approvalResponse <- awaitApproveWLDSpending amountInWei ;;
     throwIfApprovalError (finalPayload approvalResponse) ;;
     paymentResponse <-
       awaitExecutePaymentService
         {| amountInWei := amountInWei; referenceId := orderId data |}
         (WLD_TOKEN_ADDRESS PAYMENT_SERVICE_CONFIG)
         (RECIPIENT_ADDRESS PAYMENT_SERVICE_CONFIG) ;;
     throwIfPaymentError (finalPayload paymentResponse) ;;
     match truthy (transaction_id (finalPayload paymentResponse)) with
     | None => throw (JsError "No transaction ID received from payment")
     | Some transactionId =>
         confirmOrContinue transactionId ;;
         toast_success "Payment successful!" ;;
         ret (PaymentResult.mk true (Some transactionId) None)
     end)
    (reportFailure "Payment processing failed")
    (setIsProcessing false).

Definition processSmartPayment (data : PaymentData) : M Wei E PaymentResult :=
  setIsProcessing true ;;
  setError None ;;
  try_catch_finally
    (amountInWei <- callWldToWei (amount data) ;;
     paymentResponse <-
       awaitExecuteSmartPayment
         {| amountInWei := amountInWei; referenceId := orderId data |}
         (walletAddress data) ;;
     throwIfPaymentError (finalPayload paymentResponse) ;;
     match truthy (transaction_id (finalPayload paymentResponse)) with
     | None => throw (JsError "No transaction ID received from payment")
     | Some transactionId =>
         confirmOrContinue transactionId ;;
         toast_success "Payment successful!" ;;
         ret (PaymentResult.mk true (Some transactionId) None)
     end)
    (reportFailure "Payment processing failed")
    (setIsProcessing false).

Definition approveTokens (walletAddress : string) (amount : number)
  : M Wei E PaymentResult :=
  setIsProcessing true ;;
  setError None ;;
  try_catch_finally
    (amountInWei <- callWldToWei amount ;;
     approvalResponse <- awaitApproveWLDSpending amountInWei ;;
     throwIfApprovalError (finalPayload approvalResponse) ;;
     let transactionId := transaction_id (finalPayload approvalResponse) in
     try_catch
       (match truthy transactionId with
        | Some id => awaitWaitForTransactionConfirmation id
        | None => ret tt
        end)
       (fun _confirmationError => ret tt) ;;
     toast_success
       "Token approval successful! You can now proceed with payment." ;;
     ret (PaymentResult.mk true transactionId None))
    (reportFailure "Token approval failed")
    (setIsProcessing false).

Definition executePaymentOnly (data : PaymentData) : M Wei E PaymentResult :=
  setIsProcessing true ;;
  setError None ;;
  try_catch_finally
    (amountInWei <- callWldToWei (amount data) ;;
     paymentResponse <-
       awaitExecutePaymentService
         {| amountInWei := amountInWei; referenceId := orderId data |}
         (WLD_TOKEN_ADDRESS PAYMENT_SERVICE_CONFIG)
         (RECIPIENT_ADDRESS PAYMENT_SERVICE_CONFIG) ;;
     throwIfPaymentError (finalPayload paymentResponse) ;;
     match truthy (transaction_id (finalPayload paymentResponse)) with
     | None => throw (JsError "No transaction ID received from payment")
     | Some transactionId =>
         confirmOrContinue transactionId ;;
         toast_success "Payment successful!" ;;
         ret (PaymentResult.mk true (Some transactionId) None)
     end)
    (reportFailure "Payment processing failed")
    (setIsProcessing false).

Definition checkAllowance (walletAddress : string) (amount : number)
  : M Wei E bool :=
  try_catch
    (amountInWei <- callWldToWei amount ;;
     awaitHassufficientAllowance walletAddress amountInWei)
    (fun _error => ret false).

(** The five flows of the hook, and their invocation on one request;
    [approveTokens] reads the wallet address and the amount only. *)
Inductive Flow : Type :=
| ProcessPayment
| ProcessPaymentWithApproval
| ProcessSmartPayment
| ApproveTokens
| ExecutePaymentOnly.

Definition invoke (f : Flow) (data : PaymentData) : M Wei E PaymentResult :=
  match f with
  | ProcessPayment => processPayment data
  | ProcessPaymentWithApproval => processPaymentWithApproval data
  | ProcessSmartPayment => processSmartPayment data
  | ApproveTokens => approveTokens (walletAddress data) (amount data)
  | ExecutePaymentOnly => executePaymentOnly data
  end.

End Hook.

(** ** Reading a run *)

Definition resultOf {A S L} (run : Completion A * S * L) : Completion A :=
  fst (fst run).

Definition stateOf {A S L} (run : Completion A * S * L) : S :=
  snd (fst run).

Definition eventsOf {A S L} (run : A * S * L) : L := snd run.

(** The amounts handed to the approval operation and to the payment
    operation during a run. *)
Definition approvedAmounts {Wei} (evs : list (Event Wei)) : list Wei :=
  flat_map (fun ev => match ev with
                      | Called (CallApproveWLDSpending a) => [a]
                      | _ => []
                      end) evs.

Definition paidAmounts {Wei} (evs : list (Event Wei)) : list Wei :=
  flat_map (fun ev => match ev with
                      | Called (CallExecutePaymentService params _ _) =>
                          [amountInWei params]
                      | _ => []
                      end) evs.

(** The two kinds of wallet-client call a flow makes, and the call whose
    transaction id a flow reports. *)
Inductive WalletStep : Type :=
| ApprovalStep
| PaymentStep.

Definition lastStep (f : Flow) : WalletStep :=
  match f with
  | ApproveTokens => ApprovalStep
  | _ => PaymentStep
  end.

(** The fallback literal of each kind of call. *)
Definition fallbackOf (k : WalletStep) : string :=
  match k with
  | ApprovalStep => "approval_failed"
  | PaymentStep => "payment_failed"
  end.

Section Outcomes.
Context {Wei E : Type}.
Context {paymentService : PaymentServiceModule Wei E}.
Context {paymentVerification : PaymentVerificationModule E}.

(** [walletReturns f k data s p]: when flow [f] is invoked on [data] in
    state [s], it reaches its wallet-client call of kind [k], and that call
    returns a response whose [finalPayload] is [p].  In
    [processPaymentWithApproval] the payment step is reached only after the
    approval call returned a payload whose status is not ["error"]. *)
Definition walletReturns
  (f : Flow) (k : WalletStep) (data : PaymentData) (s : HookState E)
  (p : FinalPayload) : Prop :=
  exists wei, wldToWei (amount data) = Return wei /\
  let params := {| amountInWei := wei; referenceId := orderId data |} in
  let token := WLD_TOKEN_ADDRESS PAYMENT_SERVICE_CONFIG in
  let recipient := RECIPIENT_ADDRESS PAYMENT_SERVICE_CONFIG in
  match f, k with
  | ProcessPayment, PaymentStep
  | ExecutePaymentOnly, PaymentStep =>
      exists e',
        executePaymentService params token recipient (ext s)
        = (Return {| finalPayload := p |}, e')
  | ProcessSmartPayment, PaymentStep =>
      exists e',
        executeSmartPayment params (walletAddress data) (ext s)
        = (Return {| finalPayload := p |}, e')
  | ApproveTokens, ApprovalStep
  | ProcessPaymentWithApproval, ApprovalStep =>
      exists e',
        approveWLDSpending wei (ext s) = (Return {| finalPayload := p |}, e')
  | ProcessPaymentWithApproval, PaymentStep =>
      exists approval e1 e',
        approveWLDSpending wei (ext s) = (Return approval, e1) /\
        status (finalPayload approval) <> "error" /\
        executePaymentService params token recipient e1
        = (Return {| finalPayload := p |}, e')
  | _, _ => False
  end.

End Outcomes.

(** ** The amount conversion *)

(** The classes of input the conversion rejects. *)
Definition nonFinite (a : number) : bool :=
  match a with
  | S754_nan | S754_infinity _ => true
  | _ => false
  end.

Definition negative (a : number) : bool :=
  match a with
  | S754_infinity true | S754_finite true _ _ => true
  | _ => false
  end.

Definition isZero (a : number) : bool :=
  match a with
  | S754_zero _ => true
  | _ => false
  end.

Definition InvalidAmount : Thrown := JsError "InvalidAmount".

(** Modelled from the spec: [wldToWei] is defined in
    [../utils/paymentService], whose source is not at hand.  The spec calls
    it [convertAmount]: a deterministic scale by 10^18 truncated to an
    integer, which fails with [InvalidAmount] if the input is non-finite,
    negative, or zero. *)
Definition convertAmount (a : number) : Completion Z :=
  if nonFinite a || negative a || isZero a then Throw InvalidAmount
  else
    match a with
    | S754_finite _ m e => Return (Z.shiftl (Z.pos m * 10 ^ 18) e)
    | _ => Throw InvalidAmount
    end.

(** ** A scripted outside world

    Collaborators that answer with fixed completions, to run the flows on
    concrete inputs. *)

Definition sampleConfig : Config :=
  {| CONTRACT_ADDRESS := "0xC0";
     WLD_TOKEN_ADDRESS := "0xA1";
     RECIPIENT_ADDRESS := "0xB2" |}.

Definition scriptedService
  (approval payment smart : Completion Response) (allowance : Completion bool)
  : PaymentServiceModule Z unit :=
  {| PAYMENT_SERVICE_CONFIG := sampleConfig;
     wldToWei := convertAmount;
     executePaymentService := fun _ _ _ e => (payment, e);
     executeSmartPayment := fun _ _ e => (smart, e);
     approveWLDSpending := fun _ e => (approval, e);
     hassufficientAllowance := fun _ _ e => (allowance, e) |}.

Definition scriptedWatcher (confirmation : Completion unit)
  : PaymentVerificationModule unit :=
  {| waitForTransactionConfirmation := fun _ e => (confirmation, e) |}.

Definition successPayload (transactionId : option string) : FinalPayload :=
  {| status := "success";
     error_code := None;
     transaction_id := transactionId |}.

Definition failurePayload (errorCode : option string) : FinalPayload :=
  {| status := "error";
     error_code := errorCode;
     transaction_id := None |}.

Definition succeeded (transactionId : option string) : Completion Response :=
  Return {| finalPayload := successPayload transactionId |}.

Definition failed (errorCode : option string) : Completion Response :=
  Return {| finalPayload := failurePayload errorCode |}.

Definition timedOut : Completion unit :=
  Throw (JsError "Transaction confirmation timeout").

(** 1.5 WLD, requested from wallet ["0xW"] for order ["order-1"]. *)
Definition sampleData : PaymentData :=
  {| orderId := "order-1";
     amount := S754_finite false 3 (-1);
     walletAddress := "0xW" |}.

Definition dataWithAmount (a : number) : PaymentData :=
  {| orderId := "order-1"; amount := a; walletAddress := "0xW" |}.

Definition idle : HookState unit := initialState tt.

(** Wallet clients used below: one that rejects the payment with an empty
    error code, one that rejects the approval with an empty error code, one
    that accepts both with transaction ids, one whose responses carry no
    transaction id, and one whose user rejects the request. *)
Definition paymentRejectedEmptyCode : PaymentServiceModule Z unit :=
  scriptedService (succeeded (Some "0xA")) (failed (Some ""))
                  (failed (Some "")) (Return true).

Definition approvalRejectedEmptyCode : PaymentServiceModule Z unit :=
  scriptedService (failed (Some "")) (succeeded (Some "0xT"))
                  (succeeded (Some "0xT")) (Return true).

Definition acceptingWallet : PaymentServiceModule Z unit :=
  scriptedService (succeeded (Some "0xA")) (succeeded (Some "0xT"))
                  (succeeded (Some "0xT")) (Return true).

Definition walletWithoutIds : PaymentServiceModule Z unit :=
  scriptedService (succeeded None) (succeeded None) (succeeded None)
                  (Return true).

Definition rejectingWallet : PaymentServiceModule Z unit :=
  scriptedService (failed (Some "user_rejected")) (failed (Some "user_rejected"))
                  (failed None) (Return true).

(** ** Further readings of a run *)

(** The transaction ids handed to [waitForTransactionConfirmation]. *)
Definition watchedIds {Wei} (evs : list (Event Wei)) : list string :=
  flat_map (fun ev => match ev with
                      | Called (CallWaitForTransactionConfirmation id) => [id]
                      | _ => []
                      end) evs.

Definition isApprovalCall {Wei} (ev : Event Wei) : bool :=
  match ev with
  | Called (CallApproveWLDSpending _) => true
  | _ => false
  end.

Definition isSmartCall {Wei} (ev : Event Wei) : bool :=
  match ev with
  | Called (CallExecuteSmartPayment _ _) => true
  | _ => false
  end.

Definition isAllowanceCall {Wei} (ev : Event Wei) : bool :=
  match ev with
  | Called (CallHassufficientAllowance _ _) => true
  | _ => false
  end.

Definition isErrorWrite {Wei} (ev : Event Wei) : bool :=
  match ev with
  | SetError _ => true
  | _ => false
  end.

Section Rejections.
Context {Wei E : Type}.
Context {paymentService : PaymentServiceModule Wei E}.
Context {paymentVerification : PaymentVerificationModule E}.

(** [walletThrows f k data s x]: when flow [f] is invoked on [data] in state
    [s], it reaches its wallet-client call of kind [k], and that call throws
    [x] (its promise rejects).  As in [walletReturns], the payment step of
    [processPaymentWithApproval] is reached only after the approval call
    returned a payload whose status is not ["error"]. *)
Definition walletThrows
  (f : Flow) (k : WalletStep) (data : PaymentData) (s : HookState E)
  (x : Thrown) : Prop :=
  exists wei, wldToWei (amount data) = Return wei /\
  let params := {| amountInWei := wei; referenceId := orderId data |} in
  let token := WLD_TOKEN_ADDRESS PAYMENT_SERVICE_CONFIG in
  let recipient := RECIPIENT_ADDRESS PAYMENT_SERVICE_CONFIG in
  match f, k with
  | ProcessPayment, PaymentStep
  | ExecutePaymentOnly, PaymentStep =>
      exists e',
        executePaymentService params token recipient (ext s) = (Throw x, e')
  | ProcessSmartPayment, PaymentStep =>
      exists e',
        executeSmartPayment params (walletAddress data) (ext s)
        = (Throw x, e')
  | ApproveTokens, ApprovalStep
  | ProcessPaymentWithApproval, ApprovalStep =>
      exists e', approveWLDSpending wei (ext s) = (Throw x, e')
  | ProcessPaymentWithApproval, PaymentStep =>
      exists approval e1 e',
        approveWLDSpending wei (ext s) = (Return approval, e1) /\
        status (finalPayload approval) <> "error" /\
        executePaymentService params token recipient e1 = (Throw x, e')
  | _, _ => False
  end.

(** The amount conversion of the flow, or one of its wallet calls, throws
    [x]. *)
Definition collaboratorThrows
  (f : Flow) (data : PaymentData) (s : HookState E) (x : Thrown) : Prop :=
  wldToWei (amount data) = Throw x \/
  exists k, walletThrows f k data s x.

End Rejections.

(** The text each flow's [catch] block reports for a thrown value that is
    not an [Error]. *)
Definition catchFallback (f : Flow) : string :=
  match f with
  | ApproveTokens => "Token approval failed"
  | _ => "Payment processing failed"
  end.

Definition withWalletAddress (data : PaymentData) (address : string)
  : PaymentData :=
  {| orderId := orderId data; amount := amount data;
     walletAddress := address |}.

(** More scripted wallets: one that answers with a status that is neither
    ["success"] nor ["error"], one whose transaction ids are empty strings,
    and one whose calls reject. *)
Definition pendingPayload : FinalPayload :=
  {| status := "pending"; error_code := None; transaction_id := Some "0xT" |}.

Definition pendingWallet : PaymentServiceModule Z unit :=
  scriptedService (Return {| finalPayload := pendingPayload |})
                  (Return {| finalPayload := pendingPayload |})
                  (Return {| finalPayload := pendingPayload |})
                  (Return false).

Definition walletWithEmptyIds : PaymentServiceModule Z unit :=
  scriptedService (succeeded (Some "")) (succeeded (Some ""))
                  (succeeded (Some "")) (Return true).

Definition unreachableWallet : PaymentServiceModule Z unit :=
  scriptedService (Throw (JsError "Network request failed"))
                  (Throw (NonError "timeout"))
                  (Throw (JsError "Network request failed"))
                  (Throw (JsError "Network request failed")).

(** A hook instance left busy and in error by an earlier invocation. *)
Definition busy : HookState unit :=
  {| ext := tt; isProcessing := true; error := Some "user_rejected" |}.

(** ** Proof support *)

Ltac unfold_hook :=
  unfold invoke, processPayment, processPaymentWithApproval,
    processSmartPayment, approveTokens, executePaymentOnly, checkAllowance,
    reportFailure, throwIfPaymentError, throwIfApprovalError,
    confirmOrContinue, errorMessageOf,
    callWldToWei, awaitExecutePaymentService, awaitExecuteSmartPayment,
    awaitApproveWLDSpending, awaitHassufficientAllowance,
    awaitWaitForTransactionConfirmation,
    try_catch_finally, try_finally, try_catch, when, bind, ret, throw,
    toast_success, toast_error, emit, setIsProcessing, setError, call, await,
    outcomeEvents, resultOf, stateOf, eventsOf in *.

(** Case analysis on the innermost scrutinee that is still stuck. *)
Ltac split_scrutinee t :=
  lazymatch t with
  | context [match ?y with _ => _ end] => split_scrutinee y
  | _ => destruct t eqn:?
  end.

Ltac step :=
  match goal with
  | |- context [match ?x with _ => _ end] => split_scrutinee x
  end.

Ltac run_hook := unfold_hook; cbn; repeat (step; cbn in *; subst).

(** Runs a flow up to its wallet-client call, given [walletReturns] as [H]. *)
Ltac reach_call H Hw :=
  repeat match type of H with
         | exists _, _ => let e := fresh "e" in destruct H as (e & H)
         | _ /\ _ => let H1 := fresh "Hq" in destruct H as (H1 & H)
         end;
  unfold_hook; cbn; rewrite Hw; cbn;
  repeat match goal with
         | Hq : _ = (_, _) |- _ => rewrite Hq; clear Hq; cbn
         | Hq : _ <> "error" |- _ =>
             apply String.eqb_neq in Hq; rewrite Hq; clear Hq; cbn
         end.

Ltac reach H :=
  let wei := fresh "wei" in
  let Hw := fresh "Hw" in
  destruct H as (wei & Hw & H); cbn in H;
  first [ contradiction | reach_call H Hw ].

(** Finds an element in the list a concrete run evaluates to. *)
Ltac find_event := vm_compute; repeat (first [left; reflexivity | right]).

(** ** Concrete runs *)

Example convertAmount_sample :
  convertAmount (amount sampleData) = Return 1500000000000000000%Z.
Proof. reflexivity. Qed.

Example processPayment_sample :
  @processPayment Z unit
    (scriptedService (failed None) (succeeded (Some "0xT")) (failed None)
                     (Return true))
    (scriptedWatcher (Return tt)) sampleData idle
  = (Return (PaymentResult.mk true (Some "0xT") None),
     idle,
     [SetIsProcessing true; SetError None;
      Called (CallWldToWei (amount sampleData));
      Called (CallExecutePaymentService
                {| amountInWei := 1500000000000000000%Z;
                   referenceId := "order-1" |} "0xA1" "0xB2");
      Called (CallWaitForTransactionConfirmation "0xT");
      ToastSuccess "Payment successful!";
      SetIsProcessing false]).
Proof. reflexivity. Qed.

Example processPayment_rejected_sample :
  @processPayment Z unit
    (scriptedService (failed None) (failed (Some "user_rejected"))
                     (failed None) (Return true))
    (scriptedWatcher (Return tt)) sampleData idle
  = (Return (PaymentResult.mk false None (Some "user_rejected")),
     {| ext := tt; isProcessing := false; error := Some "user_rejected" |},
     [SetIsProcessing true; SetError None;
      Called (CallWldToWei (amount sampleData));
      Called (CallExecutePaymentService
                {| amountInWei := 1500000000000000000%Z;
                   referenceId := "order-1" |} "0xA1" "0xB2");
      SetError (Some "user_rejected");
      ToastError "user_rejected";
      SetIsProcessing false]).
Proof. reflexivity. Qed.

(** ** Properties *)

Section Properties.
Context {Wei E : Type}.
Context {paymentService : PaymentServiceModule Wei E}.
Context {paymentVerification : PaymentVerificationModule E}.

Lemma truthy_some (v : option string) (t : string) :
  truthy v = Some t -> v = Some t /\ t <> "".
Proof.
  destruct v as [c|]; cbn; [|discriminate].
  destruct (String.eqb_spec c ""); [discriminate|].
  intros H; injection H as <-. split; [reflexivity | assumption].
Qed.

Lemma truthy_nonempty (t : string) : t <> "" -> truthy (Some t) = Some t.
Proof.
  intros H; cbn. destruct (String.eqb_spec t ""); [contradiction | reflexivity].
Qed.

(** A flow never throws: the promise it returns always resolves. *)
Lemma invoke_returns (f : Flow) (data : PaymentData) (s : HookState E) :
  exists r, resultOf (invoke f data s) = Return r.
Proof.
  destruct f; run_hook; eexists; reflexivity.
Qed.

(** When the conversion throws, a flow makes no wallet-client call and
    reports the thrown error. *)
Lemma conversion_failure_stops (f : Flow) (data : PaymentData)
  (s : HookState E) (x : Thrown) :
  wldToWei (amount data) = Throw x ->
  filter isWalletCall (eventsOf (invoke f data s)) = [] /\
  exists fallback,
    resultOf (invoke f data s)
    = Return (PaymentResult.mk false None (Some (errorMessageOf x fallback))).
Proof.
  intros H. destruct f; unfold_hook; cbn; rewrite H; cbn;
    (split; [reflexivity | eexists; destruct x; reflexivity]).
Qed.

(** C6. [checkAllowance] never throws.  It returns [false] when the amount
    conversion throws and when [hassufficientAllowance] throws, and the
    boolean that [hassufficientAllowance] returned otherwise. *)
Theorem checkAllowance_fail_closed
  (walletAddress : string) (amount : number) (s : HookState E) :
  resultOf (checkAllowance walletAddress amount s)
  = Return
      match wldToWei amount with
      | Throw _ => false
      | Return amountInWei =>
          match fst (hassufficientAllowance walletAddress amountInWei (ext s))
          with
          | Return sufficient => sufficient
          | Throw _ => false
          end
      end.
Proof.
  run_hook; reflexivity.
Qed.

(** C10. [checkAllowance] leaves [isProcessing] and [error] as they were and
    writes to neither cell, on its normal path and on its
    exception-swallowing path alike; every one of the five flows writes to
    both. *)
Theorem checkAllowance_frame
  (walletAddress : string) (amount : number) (s : HookState E) :
  (isProcessing (stateOf (checkAllowance walletAddress amount s))
   = isProcessing s /\
   error (stateOf (checkAllowance walletAddress amount s)) = error s /\
   filter isStateWrite (eventsOf (checkAllowance walletAddress amount s)) = [])
  /\
  forall (f : Flow) (data : PaymentData) (s0 : HookState E),
    In (SetIsProcessing true) (eventsOf (invoke f data s0)) /\
    In (SetError None) (eventsOf (invoke f data s0)).
Proof.
  split.
  - run_hook; repeat split; reflexivity.
  - intros f data s0. destruct f; run_hook; split; cbn; auto.
Qed.

(** C5. Every flow, on every exit path, first sets [isProcessing] to true and
    then [error] to null, writes [isProcessing] exactly once more, as its
    last action and to false, and resolves (never rejects) with
    [isProcessing] false. *)
Theorem isProcessing_bracket (f : Flow) (data : PaymentData) (s : HookState E) :
  (exists r, resultOf (invoke f data s) = Return r) /\
  firstn 2 (eventsOf (invoke f data s)) = [SetIsProcessing true; SetError None]
  /\
  filter isProcessingWrite (eventsOf (invoke f data s))
  = [SetIsProcessing true; SetIsProcessing false] /\
  last (eventsOf (invoke f data s)) (SetError None) = SetIsProcessing false /\
  isProcessing (stateOf (invoke f data s)) = false.
Proof.
  destruct f; run_hook;
    (split; [eexists; reflexivity | repeat split; reflexivity]).
Qed.

(** C8. Every flow invocation shows exactly one notification: a success toast
    when it reports success, and otherwise an error toast that carries the
    error message of the result. *)
Theorem one_notification (f : Flow) (data : PaymentData) (s : HookState E) :
  exists r,
    resultOf (invoke f data s) = Return r /\
    ((PaymentResult.success r = true /\
      exists msg,
        filter isToast (eventsOf (invoke f data s)) = [ToastSuccess msg])
     \/
     (PaymentResult.success r = false /\
      exists errorMessage,
        PaymentResult.error r = Some errorMessage /\
        filter isToast (eventsOf (invoke f data s))
        = [ToastError errorMessage])).
Proof.
  destruct f; run_hook; eexists; (split; [reflexivity|]); cbn;
    first [ left; split; [reflexivity | eexists; reflexivity]
          | right; split; [reflexivity | eexists; split; reflexivity] ].
Qed.

(** C1, as amended.  When the wallet-client call of a flow returns a Failure
    outcome, the flow returns [{success:false}] whose error is the outcome's
    error code when that code is present and not the empty string, and
    otherwise the fallback literal: ["payment_failed"] for the payment calls
    and ["approval_failed"] for the approval calls. *)
Theorem failure_normalized
  (f : Flow) (k : WalletStep) (data : PaymentData) (s : HookState E)
  (p : FinalPayload) :
  walletReturns f k data s p ->
  Failure p ->
  resultOf (invoke f data s)
  = Return (PaymentResult.mk false None
              (Some match error_code p with
                    | Some errorCode =>
                        if errorCode =? "" then fallbackOf k else errorCode
                    | None => fallbackOf k
                    end)).
Proof.
  intros H HF. unfold Failure in HF.
  destruct f, k; reach H; rewrite HF; cbn;
    destruct (error_code p) as [c|]; cbn; try reflexivity;
    destruct (c =? ""); reflexivity.
Qed.

(** C2. When the wallet client reports Success with no transaction id, the
    four payment flows return [{success:false}] with the error
    ["No transaction ID received from payment"], while [approveTokens]
    returns [{success:true}] with no transaction id. *)
Theorem missing_transaction_id
  (f : Flow) (data : PaymentData) (s : HookState E) (p : FinalPayload) :
  walletReturns f (lastStep f) data s p ->
  Success p ->
  transaction_id p = None ->
  resultOf (invoke f data s)
  = Return match f with
           | ApproveTokens => PaymentResult.mk true None None
           | _ =>
               PaymentResult.mk false None
                 (Some "No transaction ID received from payment")
           end.
Proof.
  intros H HS Hid. unfold Success in HS.
  destruct f; cbn [lastStep] in H; reach H; rewrite HS, Hid; reflexivity.
Qed.

(** With a non-empty transaction id in a Success outcome, every flow reports
    that id, whatever the confirmation watcher does, and the watcher is
    asked about that id. *)
Lemma submission_reported
  (f : Flow) (data : PaymentData) (s : HookState E) (p : FinalPayload)
  (transactionId : string) :
  walletReturns f (lastStep f) data s p ->
  Success p ->
  transaction_id p = Some transactionId ->
  transactionId <> "" ->
  resultOf (invoke f data s)
  = Return (PaymentResult.mk true (Some transactionId) None) /\
  In (Called (CallWaitForTransactionConfirmation transactionId))
     (eventsOf (invoke f data s)).
Proof.
  intros H HS Hid Hne. unfold Success in HS.
  apply truthy_nonempty in Hne.
  destruct f; cbn [lastStep] in H; reach H; rewrite HS, Hid; cbn -[truthy];
    rewrite Hne; cbn;
    destruct (waitForTransactionConfirmation transactionId _) as [[[]|?] ?];
    cbn; split; auto 10.
Qed.

(** C3. Once the wallet-client call of a flow has returned Success with a
    transaction id (a non-empty string), the flow returns
    [{success:true, transactionId}] whatever the confirmation watcher
    answers; and when the watcher rejects (failure or timeout), that
    rejection does occur in the run and is absorbed. *)
Theorem confirmation_failure_absorbed
  (f : Flow) (data : PaymentData) (s : HookState E) (p : FinalPayload)
  (transactionId : string) :
  walletReturns f (lastStep f) data s p ->
  Success p ->
  transaction_id p = Some transactionId ->
  transactionId <> "" ->
  resultOf (invoke f data s)
  = Return (PaymentResult.mk true (Some transactionId) None) /\
  forall confirmationError : Thrown,
    (forall e, exists e',
        waitForTransactionConfirmation transactionId e
        = (Throw confirmationError, e')) ->
    In (Rejected (CallWaitForTransactionConfirmation transactionId)
                 confirmationError)
       (eventsOf (invoke f data s)).
Proof.
  intros H HS Hid Hne.
  split; [apply (submission_reported f data s p transactionId H HS Hid Hne)|].
  intros x Hx. unfold Success in HS. apply truthy_nonempty in Hne.
  destruct f; cbn [lastStep] in H; reach H; rewrite HS, Hid; cbn -[truthy];
    rewrite Hne; cbn;
    match goal with
    | |- context [waitForTransactionConfirmation transactionId ?e] =>
        let e' := fresh "e" in
        let Hq := fresh "Hq" in
        destruct (Hx e) as [e' Hq]; rewrite Hq
    end;
    cbn; auto 10.
Qed.

(** C4, as amended.  When the approval call of
    [processPaymentWithApproval] returns a Failure outcome, the payment
    operation is never invoked and the flow returns [{success:false}] whose
    error is the approval error code when that code is present and not the
    empty string, and ["approval_failed"] otherwise. *)
Theorem approval_failure_stops
  (data : PaymentData) (s : HookState E) (p : FinalPayload) :
  walletReturns ProcessPaymentWithApproval ApprovalStep data s p ->
  Failure p ->
  filter isPaymentCall (eventsOf (processPaymentWithApproval data s)) = [] /\
  paidAmounts (eventsOf (processPaymentWithApproval data s)) = [] /\
  resultOf (processPaymentWithApproval data s)
  = Return (PaymentResult.mk false None
              (Some match error_code p with
                    | Some errorCode =>
                        if errorCode =? "" then "approval_failed"
                        else errorCode
                    | None => "approval_failed"
                    end)).
Proof.
  intros H HF. unfold Failure in HF.
  reach H; rewrite HF; cbn.
  destruct (error_code p) as [c|]; cbn; [destruct (c =? "")|];
    repeat split; reflexivity.
Qed.

(** C7. [processPaymentWithApproval] converts the amount exactly once per
    invocation, and every amount it hands to the approval call or to the
    payment call is the value that one conversion returned. *)
Theorem single_conversion (data : PaymentData) (s : HookState E) :
  filter isConversion (eventsOf (processPaymentWithApproval data s))
  = [Called (CallWldToWei (amount data))] /\
  forall a : Wei,
    In a (approvedAmounts (eventsOf (processPaymentWithApproval data s)) ++
          paidAmounts (eventsOf (processPaymentWithApproval data s))) ->
    wldToWei (amount data) = Return a.
Proof.
  run_hook; (split; [reflexivity|]); intros ? Hin; cbn in Hin;
    repeat (destruct Hin as [Hin | Hin]; [subst|]);
    try contradiction; reflexivity.
Qed.

End Properties.

(** ** The conversion the spec describes *)

(** C9. With the conversion of the spec, an amount that is non-finite,
    negative, or zero fails with [InvalidAmount]; the flow then makes no
    wallet-client call and reports that failure. *)
Theorem invalid_amount_rejected
  {E : Type} {paymentService : PaymentServiceModule Z E}
  {paymentVerification : PaymentVerificationModule E}
  (f : Flow) (data : PaymentData) (s : HookState E) :
  (forall a, wldToWei a = convertAmount a) ->
  nonFinite (amount data) = true \/
  negative (amount data) = true \/
  isZero (amount data) = true ->
  convertAmount (amount data) = Throw InvalidAmount /\
  filter isWalletCall (eventsOf (invoke f data s)) = [] /\
  resultOf (invoke f data s)
  = Return (PaymentResult.mk false None (Some "InvalidAmount")).
Proof.
  intros Hconv Hbad.
  assert (Hthrow : convertAmount (amount data) = Throw InvalidAmount).
  { unfold convertAmount.
    destruct Hbad as [H | [H | H]]; rewrite H;
      rewrite ?orb_true_r; reflexivity. }
  split; [exact Hthrow|].
  rewrite <- Hconv in Hthrow.
  destruct (conversion_failure_stops f data s InvalidAmount Hthrow)
    as (Hcalls & fallback & Hres).
  split; assumption.
Qed.

(** ** The properties on concrete runs *)

(** The user rejects the payment: [processPayment] reports the wallet's
    code. *)
Lemma failure_normalized_witness :
  @walletReturns Z unit rejectingWallet ProcessPayment PaymentStep
    sampleData idle (failurePayload (Some "user_rejected")) /\
  Failure (failurePayload (Some "user_rejected")) /\
  resultOf (@invoke Z unit rejectingWallet (scriptedWatcher (Return tt))
              ProcessPayment sampleData idle)
  = Return (PaymentResult.mk false None (Some "user_rejected")).
Proof.
  assert (Hcall : @walletReturns Z unit rejectingWallet ProcessPayment
                    PaymentStep sampleData idle
                    (failurePayload (Some "user_rejected"))).
  { exists 1500000000000000000%Z. split; [reflexivity|].
    exists tt. reflexivity. }
  assert (Hfail : Failure (failurePayload (Some "user_rejected"))).
  { reflexivity. }
  split; [exact Hcall|]. split; [exact Hfail|].
  exact (@failure_normalized Z unit rejectingWallet
           (scriptedWatcher (Return tt)) ProcessPayment PaymentStep
           sampleData idle _ Hcall Hfail).
Defined.

(** An error code that is present but empty is not reported verbatim:
    [processPayment] reports ["payment_failed"]. *)
Lemma failure_code_verbatim_counterexample :
  @walletReturns Z unit paymentRejectedEmptyCode ProcessPayment PaymentStep
    sampleData idle (failurePayload (Some "")) /\
  Failure (failurePayload (Some "")) /\
  error_code (failurePayload (Some "")) = Some "" /\
  resultOf (@processPayment Z unit paymentRejectedEmptyCode
              (scriptedWatcher (Return tt)) sampleData idle)
  = Return (PaymentResult.mk false None (Some "payment_failed")) /\
  resultOf (@processPayment Z unit paymentRejectedEmptyCode
              (scriptedWatcher (Return tt)) sampleData idle)
  <> Return (PaymentResult.mk false None (Some "")).
Proof.
  split.
  { exists 1500000000000000000%Z. split; [reflexivity|].
    exists tt. reflexivity. }
  split; [reflexivity|]. split; [reflexivity|].
  split; [vm_compute; reflexivity|]. vm_compute. discriminate.
Qed.

(** The wallet accepts the payment without a transaction id. *)
Lemma missing_transaction_id_witness :
  @walletReturns Z unit walletWithoutIds ProcessPayment
    (lastStep ProcessPayment) sampleData idle (successPayload None) /\
  Success (successPayload None) /\
  transaction_id (successPayload None) = None /\
  resultOf (@invoke Z unit walletWithoutIds (scriptedWatcher (Return tt))
              ProcessPayment sampleData idle)
  = Return (PaymentResult.mk false None
              (Some "No transaction ID received from payment")).
Proof.
  assert (Hcall : @walletReturns Z unit walletWithoutIds ProcessPayment
                    (lastStep ProcessPayment) sampleData idle
                    (successPayload None)).
  { exists 1500000000000000000%Z. split; [reflexivity|].
    exists tt. reflexivity. }
  assert (Hok : Success (successPayload None)) by reflexivity.
  assert (Hid : transaction_id (successPayload None) = None) by reflexivity.
  split; [exact Hcall|]. split; [exact Hok|]. split; [exact Hid|].
  exact (@missing_transaction_id Z unit walletWithoutIds
           (scriptedWatcher (Return tt)) ProcessPayment sampleData idle _
           Hcall Hok Hid).
Defined.

(** The same wallet, asked for an approval only. *)
Example approveTokens_without_id :
  resultOf (@approveTokens Z unit walletWithoutIds
              (scriptedWatcher (Return tt)) "0xW" (amount sampleData) idle)
  = Return (PaymentResult.mk true None None).
Proof. reflexivity. Qed.

(** The watcher times out after the submission: after the payment of
    [processPaymentWithApproval] and of [processPayment], submitted as
    ["0xT"], and after the approval of [approveTokens], submitted as
    ["0xA"]. *)
Lemma confirmation_failure_absorbed_witness :
  (@walletReturns Z unit acceptingWallet ProcessPaymentWithApproval
     (lastStep ProcessPaymentWithApproval) sampleData idle
     (successPayload (Some "0xT")) /\
   @walletReturns Z unit acceptingWallet ProcessPayment
     (lastStep ProcessPayment) sampleData idle
     (successPayload (Some "0xT")) /\
   @walletReturns Z unit acceptingWallet ApproveTokens
     (lastStep ApproveTokens) sampleData idle
     (successPayload (Some "0xA"))) /\
  (Success (successPayload (Some "0xT")) /\
   Success (successPayload (Some "0xA"))) /\
  ("0xT" <> "" /\ "0xA" <> "") /\
  (forall e, exists e',
      @waitForTransactionConfirmation unit (scriptedWatcher timedOut) "0xT" e
      = (Throw (JsError "Transaction confirmation timeout"), e')) /\
  (resultOf (@invoke Z unit acceptingWallet (scriptedWatcher timedOut)
               ProcessPaymentWithApproval sampleData idle)
   = Return (PaymentResult.mk true (Some "0xT") None) /\
   In (Rejected (CallWaitForTransactionConfirmation "0xT")
                (JsError "Transaction confirmation timeout"))
      (eventsOf (@invoke Z unit acceptingWallet (scriptedWatcher timedOut)
                   ProcessPaymentWithApproval sampleData idle))) /\
  resultOf (@invoke Z unit acceptingWallet (scriptedWatcher timedOut)
              ProcessPayment sampleData idle)
  = Return (PaymentResult.mk true (Some "0xT") None) /\
  resultOf (@invoke Z unit acceptingWallet (scriptedWatcher timedOut)
              ApproveTokens sampleData idle)
  = Return (PaymentResult.mk true (Some "0xA") None).
Proof.
  assert (Hboth : @walletReturns Z unit acceptingWallet
                    ProcessPaymentWithApproval
                    (lastStep ProcessPaymentWithApproval) sampleData idle
                    (successPayload (Some "0xT"))).
  { exists 1500000000000000000%Z. split; [reflexivity|].
    exists {| finalPayload := successPayload (Some "0xA") |}, tt, tt.
    split; [reflexivity|]. split; [discriminate | reflexivity]. }
  assert (Hpay : @walletReturns Z unit acceptingWallet ProcessPayment
                   (lastStep ProcessPayment) sampleData idle
                   (successPayload (Some "0xT"))).
  { exists 1500000000000000000%Z. split; [reflexivity|].
    exists tt. reflexivity. }
  assert (Happrove : @walletReturns Z unit acceptingWallet ApproveTokens
                       (lastStep ApproveTokens) sampleData idle
                       (successPayload (Some "0xA"))).
  { exists 1500000000000000000%Z. split; [reflexivity|].
    exists tt. reflexivity. }
  assert (HokT : Success (successPayload (Some "0xT"))) by reflexivity.
  assert (HokA : Success (successPayload (Some "0xA"))) by reflexivity.
  assert (HneT : "0xT" <> "") by discriminate.
  assert (HneA : "0xA" <> "") by discriminate.
  assert (Hout : forall e, exists e',
             @waitForTransactionConfirmation unit (scriptedWatcher timedOut)
               "0xT" e
             = (Throw (JsError "Transaction confirmation timeout"), e')).
  { intros e. exists e. reflexivity. }
  split; [exact (conj Hboth (conj Hpay Happrove))|].
  split; [exact (conj HokT HokA)|].
  split; [exact (conj HneT HneA)|].
  split; [exact Hout|].
  split; [|split].
  - split.
    + exact (proj1 (@confirmation_failure_absorbed Z unit acceptingWallet
                      (scriptedWatcher timedOut) ProcessPaymentWithApproval
                      sampleData idle _ "0xT" Hboth HokT eq_refl HneT)).
    + exact (proj2 (@confirmation_failure_absorbed Z unit acceptingWallet
                      (scriptedWatcher timedOut) ProcessPaymentWithApproval
                      sampleData idle _ "0xT" Hboth HokT eq_refl HneT)
                   _ Hout).
  - exact (proj1 (@confirmation_failure_absorbed Z unit acceptingWallet
                    (scriptedWatcher timedOut) ProcessPayment
                    sampleData idle _ "0xT" Hpay HokT eq_refl HneT)).
  - exact (proj1 (@confirmation_failure_absorbed Z unit acceptingWallet
                    (scriptedWatcher timedOut) ApproveTokens
                    sampleData idle _ "0xA" Happrove HokA eq_refl HneA)).
Defined.

(** The user rejects the approval: no payment call follows. *)
Lemma approval_failure_stops_witness :
  @walletReturns Z unit rejectingWallet ProcessPaymentWithApproval
    ApprovalStep sampleData idle (failurePayload (Some "user_rejected")) /\
  Failure (failurePayload (Some "user_rejected")) /\
  filter isPaymentCall
    (eventsOf (@processPaymentWithApproval Z unit rejectingWallet
                 (scriptedWatcher (Return tt)) sampleData idle)) = [] /\
  paidAmounts
    (eventsOf (@processPaymentWithApproval Z unit rejectingWallet
                 (scriptedWatcher (Return tt)) sampleData idle)) = [] /\
  resultOf (@processPaymentWithApproval Z unit rejectingWallet
              (scriptedWatcher (Return tt)) sampleData idle)
  = Return (PaymentResult.mk false None (Some "user_rejected")).
Proof.
  assert (Hcall : @walletReturns Z unit rejectingWallet
                    ProcessPaymentWithApproval ApprovalStep sampleData idle
                    (failurePayload (Some "user_rejected"))).
  { exists 1500000000000000000%Z. split; [reflexivity|].
    exists tt. reflexivity. }
  assert (Hfail : Failure (failurePayload (Some "user_rejected")))
    by reflexivity.
  split; [exact Hcall|]. split; [exact Hfail|].
  exact (@approval_failure_stops Z unit rejectingWallet
           (scriptedWatcher (Return tt)) sampleData idle _ Hcall Hfail).
Defined.

(** An approval error code that is present but empty is not returned
    verbatim: [processPaymentWithApproval] reports ["approval_failed"]. *)
Lemma approval_code_verbatim_counterexample :
  @walletReturns Z unit approvalRejectedEmptyCode ProcessPaymentWithApproval
    ApprovalStep sampleData idle (failurePayload (Some "")) /\
  Failure (failurePayload (Some "")) /\
  error_code (failurePayload (Some "")) = Some "" /\
  resultOf (@processPaymentWithApproval Z unit approvalRejectedEmptyCode
              (scriptedWatcher (Return tt)) sampleData idle)
  = Return (PaymentResult.mk false None (Some "approval_failed")) /\
  resultOf (@processPaymentWithApproval Z unit approvalRejectedEmptyCode
              (scriptedWatcher (Return tt)) sampleData idle)
  <> Return (PaymentResult.mk false None (Some "")).
Proof.
  split.
  { exists 1500000000000000000%Z. split; [reflexivity|].
    exists tt. reflexivity. }
  split; [reflexivity|]. split; [reflexivity|].
  split; [vm_compute; reflexivity|]. vm_compute. discriminate.
Qed.

(** Approval and payment both receive the 1.5 * 10^18 of the one
    conversion. *)
Lemma single_conversion_witness :
  In 1500000000000000000%Z
     (approvedAmounts
        (eventsOf (@processPaymentWithApproval Z unit acceptingWallet
                     (scriptedWatcher (Return tt)) sampleData idle)) ++
      paidAmounts
        (eventsOf (@processPaymentWithApproval Z unit acceptingWallet
                     (scriptedWatcher (Return tt)) sampleData idle))) /\
  approvedAmounts
    (eventsOf (@processPaymentWithApproval Z unit acceptingWallet
                 (scriptedWatcher (Return tt)) sampleData idle))
  = [1500000000000000000%Z] /\
  paidAmounts
    (eventsOf (@processPaymentWithApproval Z unit acceptingWallet
                 (scriptedWatcher (Return tt)) sampleData idle))
  = [1500000000000000000%Z] /\
  filter isConversion
    (eventsOf (@processPaymentWithApproval Z unit acceptingWallet
                 (scriptedWatcher (Return tt)) sampleData idle))
  = [Called (CallWldToWei (amount sampleData))] /\
  @wldToWei Z unit acceptingWallet (amount sampleData)
  = Return 1500000000000000000%Z.
Proof.
  assert (Hin : In 1500000000000000000%Z
     (approvedAmounts
        (eventsOf (@processPaymentWithApproval Z unit acceptingWallet
                     (scriptedWatcher (Return tt)) sampleData idle)) ++
      paidAmounts
        (eventsOf (@processPaymentWithApproval Z unit acceptingWallet
                     (scriptedWatcher (Return tt)) sampleData idle)))).
  { vm_compute. left. reflexivity. }
  split; [exact Hin|].
  split; [vm_compute; reflexivity|]. split; [vm_compute; reflexivity|].
  split.
  - exact (proj1 (@single_conversion Z unit acceptingWallet
                    (scriptedWatcher (Return tt)) sampleData idle)).
  - exact (proj2 (@single_conversion Z unit acceptingWallet
                    (scriptedWatcher (Return tt)) sampleData idle) _ Hin).
Defined.

(** A zero amount never reaches the wallet. *)
Lemma invalid_amount_rejected_witness :
  (forall a, @wldToWei Z unit acceptingWallet a = convertAmount a) /\
  (nonFinite (S754_zero false) = true \/
   negative (S754_zero false) = true \/
   isZero (S754_zero false) = true) /\
  convertAmount (S754_zero false) = Throw InvalidAmount /\
  filter isWalletCall
    (eventsOf (@invoke Z unit acceptingWallet (scriptedWatcher (Return tt))
                 ProcessPaymentWithApproval
                 (dataWithAmount (S754_zero false)) idle)) = [] /\
  resultOf (@invoke Z unit acceptingWallet (scriptedWatcher (Return tt))
              ProcessPaymentWithApproval
              (dataWithAmount (S754_zero false)) idle)
  = Return (PaymentResult.mk false None (Some "InvalidAmount")).
Proof.
  assert (Hconv : forall a, @wldToWei Z unit acceptingWallet a
                            = convertAmount a).
  { intros a. reflexivity. }
  assert (Hbad : nonFinite (S754_zero false) = true \/
                 negative (S754_zero false) = true \/
                 isZero (S754_zero false) = true).
  { right. right. reflexivity. }
  split; [exact Hconv|]. split; [exact Hbad|].
  exact (@invalid_amount_rejected unit acceptingWallet
           (scriptedWatcher (Return tt)) ProcessPaymentWithApproval
           (dataWithAmount (S754_zero false)) idle Hconv Hbad).
Defined.

(** Negative, infinite and NaN amounts are rejected alike. *)
Example convertAmount_rejects :
  convertAmount (S754_finite true 3 (-1)) = Throw InvalidAmount /\
  convertAmount (S754_infinity false) = Throw InvalidAmount /\
  convertAmount S754_nan = Throw InvalidAmount /\
  convertAmount (S754_zero true) = Throw InvalidAmount.
Proof. repeat split. Qed.

(** The allowance query on concrete inputs: the predicate's answer, and
    [false] when the predicate or the conversion throws. *)
Example checkAllowance_samples :
  @checkAllowance Z unit acceptingWallet "0xW" (amount sampleData) idle
  = (Return true, idle,
     [Called (CallWldToWei (amount sampleData));
      Called (CallHassufficientAllowance "0xW" 1500000000000000000%Z)]) /\
  resultOf (@checkAllowance Z unit
              (scriptedService (failed None) (failed None) (failed None)
                               (Throw (JsError "rpc unreachable")))
              "0xW" (amount sampleData) idle)
  = Return false /\
  resultOf (@checkAllowance Z unit acceptingWallet "0xW" S754_nan idle)
  = Return false.
Proof. repeat split. Qed.

(** ** Further properties of the hook *)

Section MoreProperties.
Context {Wei E : Type}.
Context {paymentService : PaymentServiceModule Wei E}.
Context {paymentVerification : PaymentVerificationModule E}.

Lemma truthy_idem (v : option string) (t : string) :
  truthy v = Some t -> truthy (Some t) = Some t.
Proof.
  intros H. apply truthy_some in H. apply truthy_nonempty, H.
Qed.

(** X1. The writes of a flow to the hook's [error] cell follow its result:
    null at entry, and then, on failure only, exactly once more with the
    error message the flow returns.  A flow that succeeds writes no error
    message. *)
Theorem error_writes_match_result
  (f : Flow) (data : PaymentData) (s : HookState E) :
  exists r,
    resultOf (invoke f data s) = Return r /\
    filter isErrorWrite (eventsOf (invoke f data s))
    = SetError None ::
      match PaymentResult.error r with
      | Some errorMessage => [SetError (Some errorMessage)]
      | None => []
      end.
Proof.
  destruct f; run_hook; eexists; split; reflexivity.
Qed.

(** X2. The result of every flow is well formed: a success carries no error
    and, except for [approveTokens], a non-empty transaction id; a failure
    carries an error message and no transaction id. *)
Theorem result_well_formed
  (f : Flow) (data : PaymentData) (s : HookState E) :
  exists r,
    resultOf (invoke f data s) = Return r /\
    if PaymentResult.success r
    then PaymentResult.error r = None /\
         (f = ApproveTokens \/
          exists id, truthy (PaymentResult.transactionId r) = Some id)
    else PaymentResult.transactionId r = None /\
         exists errorMessage, PaymentResult.error r = Some errorMessage.
Proof.
  destruct f; run_hook; eexists; (split; [reflexivity|]); cbn;
    (split; [reflexivity|]);
    first [ eexists; reflexivity
          | left; reflexivity
          | match goal with
            | H : truthy _ = Some ?t |- _ =>
                right; exists t; exact (truthy_idem _ _ H)
            end ].
Qed.

(** X3. A flow asks the confirmation watcher about at most one transaction,
    and only about the non-empty id that it then reports as a success. *)
Theorem watcher_only_for_reported_id
  (f : Flow) (data : PaymentData) (s : HookState E) :
  (length (watchedIds (eventsOf (invoke f data s))) <= 1)%nat /\
  forall id : string,
    In id (watchedIds (eventsOf (invoke f data s))) ->
    truthy (Some id) = Some id /\
    resultOf (invoke f data s)
    = Return (PaymentResult.mk true (Some id) None).
Proof.
  destruct f; run_hook; (split; [cbn; lia|]); intros ? Hin; cbn in Hin;
    repeat (destruct Hin as [Hin | Hin]; [subst|]); try contradiction;
    match goal with
    | H : truthy _ = Some ?t |- _ =>
        split;
        [ exact (truthy_idem _ _ H)
        | rewrite ?(proj1 (truthy_some _ _ H)); reflexivity ]
    end.
Qed.

(** X4. Whenever a flow calls [executePaymentService], it passes the order id
    as [referenceId], the value returned by [wldToWei] for the requested
    amount, and the token and recipient addresses of the configuration. *)
Theorem payment_call_arguments
  (f : Flow) (data : PaymentData) (s : HookState E)
  (params : PaymentParams Wei) (tokenAddress recipientAddress : string) :
  In (Called (CallExecutePaymentService params tokenAddress recipientAddress))
     (eventsOf (invoke f data s)) ->
  referenceId params = orderId data /\
  wldToWei (amount data) = Return (amountInWei params) /\
  tokenAddress = WLD_TOKEN_ADDRESS PAYMENT_SERVICE_CONFIG /\
  recipientAddress = RECIPIENT_ADDRESS PAYMENT_SERVICE_CONFIG.
Proof.
  destruct f; run_hook; intros Hin; cbn in Hin;
    repeat (destruct Hin as [Hin | Hin];
            [try discriminate; try (injection Hin as <- <- <-)|]);
    try contradiction; repeat split; reflexivity.
Qed.

(** X5. [executeSmartPayment] is called by [processSmartPayment] only, with
    the order id as [referenceId], the converted amount, and the wallet
    address of the request. *)
Theorem smart_call_arguments
  (f : Flow) (data : PaymentData) (s : HookState E)
  (params : PaymentParams Wei) (address : string) :
  In (Called (CallExecuteSmartPayment params address))
     (eventsOf (invoke f data s)) ->
  f = ProcessSmartPayment /\
  referenceId params = orderId data /\
  wldToWei (amount data) = Return (amountInWei params) /\
  address = walletAddress data.
Proof.
  destruct f; run_hook; intros Hin; cbn in Hin;
    repeat (destruct Hin as [Hin | Hin];
            [try discriminate; try (injection Hin as <- <-)|]);
    try contradiction; repeat split; reflexivity.
Qed.

(** X6. The wallet operations of each flow: [processPayment] and
    [executePaymentOnly] never request an approval, [approveTokens] never
    pays, only [processSmartPayment] uses the smart payment, no flow queries
    the allowance, and a flow makes at most one wallet call (two for
    [processPaymentWithApproval]). *)
Theorem flow_operations (f : Flow) (data : PaymentData) (s : HookState E) :
  (length (filter isWalletCall (eventsOf (invoke f data s)))
   <= match f with ProcessPaymentWithApproval => 2 | _ => 1 end)%nat /\
  filter isAllowanceCall (eventsOf (invoke f data s)) = [] /\
  match f with
  | ProcessPayment | ExecutePaymentOnly =>
      filter isApprovalCall (eventsOf (invoke f data s)) = [] /\
      filter isSmartCall (eventsOf (invoke f data s)) = []
  | ProcessPaymentWithApproval =>
      filter isSmartCall (eventsOf (invoke f data s)) = []
  | ProcessSmartPayment =>
      filter isApprovalCall (eventsOf (invoke f data s)) = [] /\
      filter isPaymentCall (eventsOf (invoke f data s)) = []
  | ApproveTokens =>
      filter isPaymentCall (eventsOf (invoke f data s)) = [] /\
      filter isSmartCall (eventsOf (invoke f data s)) = []
  end.
Proof.
  destruct f; run_hook; repeat split; cbn; try reflexivity; lia.
Qed.

(** X7. [processPaymentWithApproval] is the approval call followed by
    [processPayment]: once the approval returned a payload whose status is
    not ["error"], it gives the result and the final state that
    [processPayment] gives in the world the approval left behind, and it
    makes the calls of [processPayment] after the approval call.  The
    approval's transaction id plays no part: its confirmation is not
    awaited. *)
Theorem approval_then_payment
  (data : PaymentData) (s : HookState E)
  (wei : Wei) (approval : Response) (e1 : E) :
  wldToWei (amount data) = Return wei ->
  approveWLDSpending wei (ext s) = (Return approval, e1) ->
  status (finalPayload approval) <> "error" ->
  resultOf (processPaymentWithApproval data s)
  = resultOf (processPayment data
                {| ext := e1; isProcessing := isProcessing s;
                   error := error s |}) /\
  stateOf (processPaymentWithApproval data s)
  = stateOf (processPayment data
               {| ext := e1; isProcessing := isProcessing s;
                  error := error s |}) /\
  eventsOf (processPaymentWithApproval data s)
  = [SetIsProcessing true; SetError None;
     Called (CallWldToWei (amount data));
     Called (CallApproveWLDSpending wei)] ++
    skipn 3 (eventsOf (processPayment data
                         {| ext := e1; isProcessing := isProcessing s;
                            error := error s |})).
Proof.
  intros Hw Ha Hs. apply String.eqb_neq in Hs.
  unfold_hook; cbn. rewrite Hw; cbn. rewrite Ha; cbn. rewrite Hs; cbn.
  repeat (step; cbn in *; subst); repeat split; reflexivity.
Qed.

(** X8. Only the status ["error"] is a failure: a payload with any other
    status and a non-empty transaction id is reported as a success with that
    id, and the watcher is asked about exactly that id. *)
Theorem any_other_status_succeeds
  (f : Flow) (data : PaymentData) (s : HookState E) (p : FinalPayload)
  (id : string) :
  walletReturns f (lastStep f) data s p ->
  status p <> "error" ->
  truthy (transaction_id p) = Some id ->
  resultOf (invoke f data s) = Return (PaymentResult.mk true (Some id) None) /\
  watchedIds (eventsOf (invoke f data s)) = [id].
Proof.
  intros H Hs Ht. apply truthy_some in Ht. destruct Ht as [Hid Hne].
  apply String.eqb_neq in Hne.
  destruct f; cbn [lastStep] in H; reach H; rewrite ?Hid; cbn;
    rewrite ?Hne; cbn;
    destruct (waitForTransactionConfirmation id _) as [[[]|?] ?];
    cbn; split; reflexivity.
Qed.

(** X9. A transaction id that is missing or the empty string is no id: with
    a status other than ["error"], the four payment flows fail with
    ["No transaction ID received from payment"], [approveTokens] succeeds
    and passes the id on as it came, and no flow asks the watcher. *)
Theorem falsy_transaction_id
  (f : Flow) (data : PaymentData) (s : HookState E) (p : FinalPayload) :
  walletReturns f (lastStep f) data s p ->
  status p <> "error" ->
  truthy (transaction_id p) = None ->
  resultOf (invoke f data s)
  = Return match f with
           | ApproveTokens => PaymentResult.mk true (transaction_id p) None
           | _ =>
               PaymentResult.mk false None
                 (Some "No transaction ID received from payment")
           end /\
  watchedIds (eventsOf (invoke f data s)) = [].
Proof.
  intros H Hs Ht.
  destruct (transaction_id p) as [t|] eqn:Hid; cbn in Ht;
    [destruct (t =? "") eqn:Hempty; [|discriminate]|];
    destruct f; cbn [lastStep] in H; reach H; rewrite ?Hid; cbn;
    rewrite ?Hempty; cbn; split; reflexivity.
Qed.

(** X10. When the amount conversion or a wallet call of a flow throws (its
    promise rejects), the flow ends as a failure: the result carries the
    message of the thrown [Error], or the flow's fixed text when the thrown
    value is not an [Error]; the error toast shows the same text, and the
    confirmation watcher is not asked. *)
Theorem rejection_reported
  (f : Flow) (data : PaymentData) (s : HookState E) (x : Thrown) :
  collaboratorThrows f data s x ->
  resultOf (invoke f data s)
  = Return (PaymentResult.mk false None
              (Some (errorMessageOf x (catchFallback f)))) /\
  filter isToast (eventsOf (invoke f data s))
  = [ToastError (errorMessageOf x (catchFallback f))] /\
  watchedIds (eventsOf (invoke f data s)) = [].
Proof.
  intros [Hconv | [k H]].
  - destruct f; unfold_hook; cbn; rewrite Hconv; cbn;
      destruct x; repeat split; reflexivity.
  - destruct f, k; reach H; destruct x; repeat split; reflexivity.
Qed.

(** X11. [checkAllowance] is a silent query: it shows no notification and
    makes no wallet call, and when it asks [hassufficientAllowance] it
    passes the caller's wallet address and the converted amount. *)
Theorem checkAllowance_silent
  (address : string) (requested : number) (s : HookState E) :
  filter isToast (eventsOf (checkAllowance address requested s)) = [] /\
  filter isWalletCall (eventsOf (checkAllowance address requested s)) = [] /\
  watchedIds (eventsOf (checkAllowance address requested s)) = [] /\
  forall (w : string) (a : Wei),
    In (Called (CallHassufficientAllowance w a))
       (eventsOf (checkAllowance address requested s)) ->
    w = address /\ wldToWei requested = Return a.
Proof.
  run_hook; repeat (split; [reflexivity|]); intros ? ? Hin; cbn in Hin;
    repeat (destruct Hin as [Hin | Hin];
            [try discriminate; try (injection Hin as <- <-)|]);
    try contradiction; split; reflexivity.
Qed.

(** X12. No flow reads the hook's own state: there is no guard against
    re-entry.  Invoked on a busy hook, or on one that holds an old error, a
    flow makes the same calls and ends with the same result and state as on
    an idle hook. *)
Theorem no_reentry_guard
  (f : Flow) (data : PaymentData) (s s' : HookState E) :
  ext s = ext s' ->
  invoke f data s = invoke f data s'.
Proof.
  destruct s as [e b o], s' as [e' b' o']; cbn; intros <-.
  destruct f; run_hook; reflexivity.
Qed.

(** X13. [executePaymentOnly] and [processPayment] are the same operation:
    same result, same final state, same calls and notifications. *)
Theorem executePaymentOnly_is_processPayment
  (data : PaymentData) (s : HookState E) :
  executePaymentOnly data s = processPayment data s.
Proof.
  reflexivity.
Qed.

(** X14. Only [processSmartPayment] uses the wallet address of the request:
    every other flow behaves the same for any wallet address. *)
Theorem walletAddress_unused
  (f : Flow) (data : PaymentData) (address : string) (s : HookState E) :
  f <> ProcessSmartPayment ->
  invoke f (withWalletAddress data address) s = invoke f data s.
Proof.
  intros Hf. destruct f; try reflexivity. contradiction.
Qed.

End MoreProperties.

(** ** The further properties on concrete runs *)

Lemma watcher_only_for_reported_id_witness :
  In "0xT"
     (watchedIds
        (eventsOf (@invoke Z unit acceptingWallet (scriptedWatcher timedOut)
                     ProcessPayment sampleData idle))) /\
  truthy (Some "0xT") = Some "0xT" /\
  resultOf (@invoke Z unit acceptingWallet (scriptedWatcher timedOut)
              ProcessPayment sampleData idle)
  = Return (PaymentResult.mk true (Some "0xT") None).
Proof.
  assert (Hin : In "0xT"
     (watchedIds
        (eventsOf (@invoke Z unit acceptingWallet (scriptedWatcher timedOut)
                     ProcessPayment sampleData idle)))) by find_event.
  split; [exact Hin|].
  exact (proj2 (@watcher_only_for_reported_id Z unit acceptingWallet
                  (scriptedWatcher timedOut) ProcessPayment sampleData idle)
               "0xT" Hin).
Defined.

Lemma payment_call_arguments_witness :
  In (Called (CallExecutePaymentService
                {| amountInWei := 1500000000000000000%Z;
                   referenceId := "order-1" |} "0xA1" "0xB2"))
     (eventsOf (@invoke Z unit acceptingWallet (scriptedWatcher (Return tt))
                  ProcessPaymentWithApproval sampleData idle)) /\
  "order-1" = orderId sampleData /\
  @wldToWei Z unit acceptingWallet (amount sampleData)
  = Return 1500000000000000000%Z /\
  "0xA1" = WLD_TOKEN_ADDRESS (@PAYMENT_SERVICE_CONFIG Z unit acceptingWallet)
  /\
  "0xB2" = RECIPIENT_ADDRESS (@PAYMENT_SERVICE_CONFIG Z unit acceptingWallet).
Proof.
  assert (Hin : In (Called (CallExecutePaymentService
                {| amountInWei := 1500000000000000000%Z;
                   referenceId := "order-1" |} "0xA1" "0xB2"))
     (eventsOf (@invoke Z unit acceptingWallet (scriptedWatcher (Return tt))
                  ProcessPaymentWithApproval sampleData idle)))
    by find_event.
  split; [exact Hin|].
  exact (@payment_call_arguments Z unit acceptingWallet
           (scriptedWatcher (Return tt)) ProcessPaymentWithApproval
           sampleData idle _ _ _ Hin).
Defined.

Lemma smart_call_arguments_witness :
  In (Called (CallExecuteSmartPayment
                {| amountInWei := 1500000000000000000%Z;
                   referenceId := "order-1" |} "0xW"))
     (eventsOf (@invoke Z unit acceptingWallet (scriptedWatcher (Return tt))
                  ProcessSmartPayment sampleData idle)) /\
  ProcessSmartPayment = ProcessSmartPayment /\
  "order-1" = orderId sampleData /\
  @wldToWei Z unit acceptingWallet (amount sampleData)
  = Return 1500000000000000000%Z /\
  "0xW" = walletAddress sampleData.
Proof.
  assert (Hin : In (Called (CallExecuteSmartPayment
                {| amountInWei := 1500000000000000000%Z;
                   referenceId := "order-1" |} "0xW"))
     (eventsOf (@invoke Z unit acceptingWallet (scriptedWatcher (Return tt))
                  ProcessSmartPayment sampleData idle)))
    by find_event.
  split; [exact Hin|].
  exact (@smart_call_arguments Z unit acceptingWallet
           (scriptedWatcher (Return tt)) ProcessSmartPayment
           sampleData idle _ _ Hin).
Defined.

(** The approval is accepted as ["0xA"], then the payment as ["0xT"]: the
    result is that of [processPayment], and ["0xA"] is never watched. *)
Lemma approval_then_payment_witness :
  @wldToWei Z unit acceptingWallet (amount sampleData)
  = Return 1500000000000000000%Z /\
  @approveWLDSpending Z unit acceptingWallet 1500000000000000000%Z (ext idle)
  = (Return {| finalPayload := successPayload (Some "0xA") |}, tt) /\
  status (successPayload (Some "0xA")) <> "error" /\
  resultOf (@processPaymentWithApproval Z unit acceptingWallet
              (scriptedWatcher (Return tt)) sampleData idle)
  = Return (PaymentResult.mk true (Some "0xT") None) /\
  watchedIds
    (eventsOf (@processPaymentWithApproval Z unit acceptingWallet
                 (scriptedWatcher (Return tt)) sampleData idle))
  = ["0xT"].
Proof.
  assert (Hw : @wldToWei Z unit acceptingWallet (amount sampleData)
               = Return 1500000000000000000%Z) by reflexivity.
  assert (Ha : @approveWLDSpending Z unit acceptingWallet
                 1500000000000000000%Z (ext idle)
               = (Return {| finalPayload := successPayload (Some "0xA") |},
                  tt)) by reflexivity.
  assert (Hs : status (successPayload (Some "0xA")) <> "error")
    by discriminate.
  split; [exact Hw|]. split; [exact Ha|]. split; [exact Hs|].
  split.
  - exact (proj1 (@approval_then_payment Z unit acceptingWallet
                    (scriptedWatcher (Return tt)) sampleData idle
                    _ _ _ Hw Ha Hs)).
  - vm_compute. reflexivity.
Defined.

(** A payload whose status is ["pending"] counts as a success. *)
Lemma any_other_status_succeeds_witness :
  @walletReturns Z unit pendingWallet ProcessPayment
    (lastStep ProcessPayment) sampleData idle pendingPayload /\
  status pendingPayload <> "error" /\
  truthy (transaction_id pendingPayload) = Some "0xT" /\
  resultOf (@invoke Z unit pendingWallet (scriptedWatcher (Return tt))
              ProcessPayment sampleData idle)
  = Return (PaymentResult.mk true (Some "0xT") None) /\
  watchedIds
    (eventsOf (@invoke Z unit pendingWallet (scriptedWatcher (Return tt))
                 ProcessPayment sampleData idle))
  = ["0xT"].
Proof.
  assert (Hcall : @walletReturns Z unit pendingWallet ProcessPayment
                    (lastStep ProcessPayment) sampleData idle pendingPayload).
  { exists 1500000000000000000%Z. split; [reflexivity|].
    exists tt. reflexivity. }
  assert (Hs : status pendingPayload <> "error") by discriminate.
  assert (Ht : truthy (transaction_id pendingPayload) = Some "0xT")
    by reflexivity.
  split; [exact Hcall|]. split; [exact Hs|]. split; [exact Ht|].
  exact (@any_other_status_succeeds Z unit pendingWallet
           (scriptedWatcher (Return tt)) ProcessPayment sampleData idle
           _ _ Hcall Hs Ht).
Defined.

(** An approval whose transaction id is the empty string: a success that
    carries the empty id, and no confirmation wait. *)
Lemma falsy_transaction_id_witness :
  @walletReturns Z unit walletWithEmptyIds ApproveTokens
    (lastStep ApproveTokens) sampleData idle (successPayload (Some "")) /\
  status (successPayload (Some "")) <> "error" /\
  truthy (transaction_id (successPayload (Some ""))) = None /\
  resultOf (@invoke Z unit walletWithEmptyIds (scriptedWatcher (Return tt))
              ApproveTokens sampleData idle)
  = Return (PaymentResult.mk true (Some "") None) /\
  watchedIds
    (eventsOf (@invoke Z unit walletWithEmptyIds (scriptedWatcher (Return tt))
                 ApproveTokens sampleData idle))
  = [].
Proof.
  assert (Hcall : @walletReturns Z unit walletWithEmptyIds ApproveTokens
                    (lastStep ApproveTokens) sampleData idle
                    (successPayload (Some ""))).
  { exists 1500000000000000000%Z. split; [reflexivity|].
    exists tt. reflexivity. }
  assert (Hs : status (successPayload (Some "")) <> "error") by discriminate.
  assert (Ht : truthy (transaction_id (successPayload (Some ""))) = None)
    by reflexivity.
  split; [exact Hcall|]. split; [exact Hs|]. split; [exact Ht|].
  exact (@falsy_transaction_id Z unit walletWithEmptyIds
           (scriptedWatcher (Return tt)) ApproveTokens sampleData idle
           _ Hcall Hs Ht).
Defined.

(** The same wallet asked for a payment: the empty id is a failure. *)
Example processPayment_empty_id :
  resultOf (@processPayment Z unit walletWithEmptyIds
              (scriptedWatcher (Return tt)) sampleData idle)
  = Return (PaymentResult.mk false None
              (Some "No transaction ID received from payment")).
Proof. reflexivity. Qed.

(** The payment call rejects with a value that is not an [Error]; the
    approval call rejects with an [Error]; the conversion throws on NaN. *)
Lemma rejection_reported_witness :
  (@collaboratorThrows Z unit unreachableWallet ProcessPayment sampleData
     idle (NonError "timeout") /\
   @collaboratorThrows Z unit unreachableWallet ApproveTokens sampleData
     idle (JsError "Network request failed") /\
   @collaboratorThrows Z unit acceptingWallet ExecutePaymentOnly
     (dataWithAmount S754_nan) idle InvalidAmount) /\
  resultOf (@invoke Z unit unreachableWallet (scriptedWatcher (Return tt))
              ProcessPayment sampleData idle)
  = Return (PaymentResult.mk false None (Some "Payment processing failed")) /\
  resultOf (@invoke Z unit unreachableWallet (scriptedWatcher (Return tt))
              ApproveTokens sampleData idle)
  = Return (PaymentResult.mk false None (Some "Network request failed")) /\
  resultOf (@invoke Z unit acceptingWallet (scriptedWatcher (Return tt))
              ExecutePaymentOnly (dataWithAmount S754_nan) idle)
  = Return (PaymentResult.mk false None (Some "InvalidAmount")).
Proof.
  assert (Hpay : @collaboratorThrows Z unit unreachableWallet ProcessPayment
                   sampleData idle (NonError "timeout")).
  { right. exists PaymentStep, 1500000000000000000%Z.
    split; [reflexivity|]. exists tt. reflexivity. }
  assert (Happrove : @collaboratorThrows Z unit unreachableWallet
                       ApproveTokens sampleData idle
                       (JsError "Network request failed")).
  { right. exists ApprovalStep, 1500000000000000000%Z.
    split; [reflexivity|]. exists tt. reflexivity. }
  assert (Hconv : @collaboratorThrows Z unit acceptingWallet
                    ExecutePaymentOnly (dataWithAmount S754_nan) idle
                    InvalidAmount).
  { left. reflexivity. }
  split; [exact (conj Hpay (conj Happrove Hconv))|].
  split; [|split].
  - exact (proj1 (@rejection_reported Z unit unreachableWallet
                    (scriptedWatcher (Return tt)) ProcessPayment sampleData
                    idle _ Hpay)).
  - exact (proj1 (@rejection_reported Z unit unreachableWallet
                    (scriptedWatcher (Return tt)) ApproveTokens sampleData
                    idle _ Happrove)).
  - exact (proj1 (@rejection_reported Z unit acceptingWallet
                    (scriptedWatcher (Return tt)) ExecutePaymentOnly
                    (dataWithAmount S754_nan) idle _ Hconv)).
Defined.

Lemma checkAllowance_silent_witness :
  In (Called (CallHassufficientAllowance "0xW" 1500000000000000000%Z))
     (eventsOf (@checkAllowance Z unit acceptingWallet "0xW"
                  (amount sampleData) idle)) /\
  "0xW" = "0xW" /\
  @wldToWei Z unit acceptingWallet (amount sampleData)
  = Return 1500000000000000000%Z.
Proof.
  assert (Hin : In (Called (CallHassufficientAllowance "0xW"
                              1500000000000000000%Z))
     (eventsOf (@checkAllowance Z unit acceptingWallet "0xW"
                  (amount sampleData) idle)))
    by find_event.
  split; [exact Hin|].
  exact (proj2 (proj2 (proj2
           (@checkAllowance_silent Z unit acceptingWallet "0xW"
              (amount sampleData) idle))) _ _ Hin).
Defined.

(** A flow started on a hook that is still busy runs all the same. *)
Lemma no_reentry_guard_witness :
  ext idle = ext busy /\
  @invoke Z unit acceptingWallet (scriptedWatcher (Return tt))
    ProcessPayment sampleData idle
  = @invoke Z unit acceptingWallet (scriptedWatcher (Return tt))
      ProcessPayment sampleData busy.
Proof.
  assert (Hext : ext idle = ext busy) by reflexivity.
  split; [exact Hext|].
  exact (@no_reentry_guard Z unit acceptingWallet
           (scriptedWatcher (Return tt)) ProcessPayment sampleData idle busy
           Hext).
Defined.

Lemma walletAddress_unused_witness :
  ApproveTokens <> ProcessSmartPayment /\
  @invoke Z unit acceptingWallet (scriptedWatcher (Return tt))
    ApproveTokens (withWalletAddress sampleData "0xOther") idle
  = @invoke Z unit acceptingWallet (scriptedWatcher (Return tt))
      ApproveTokens sampleData idle.
Proof.
  assert (Hf : ApproveTokens <> ProcessSmartPayment) by discriminate.
  split; [exact Hf|].
  exact (@walletAddress_unused Z unit acceptingWallet
           (scriptedWatcher (Return tt)) ApproveTokens sampleData "0xOther"
           idle Hf).
Defined.
